(** * The Ascnd leaderboard client: facade, transport configuration and
      error conversion

    A shallow embedding of [AscndClient] (client.ts), of the
    configuration and error types it uses (types.ts) and of two of the
    example programs that call it, with the properties the specification
    states about them and further ones read off the code.

    JavaScript values are an inductive type, a JS [number] is an IEEE 754
    binary64 (the kernel's primitive [float]), a string is the sequence
    of its code units, each below 256, header sets and string-keyed
    objects are finite maps.  Code that may
    call the service is a function from the world (what the network
    answers, and the requests sent so far) to a completion and the world
    after it. *)

From Stdlib Require Import NArith String Ascii List DecimalString.
From Stdlib Require Import Floats.PrimFloat.
From stdpp Require Import base option strings gmap.

Import ListNotations.
Open Scope string_scope.

#[local] Set Warnings "-register-all".

(** ** JavaScript values *)

(** A JS [number]. *)
Definition number : Set := float.

(** The [Code] enum of the library @connectrpc/connect, the type of
    [ConnectError.code] ([ConnectError] is imported on the first line of
    client.ts).  The library declares it as a TypeScript numeric enum:
    each member is a number, the gRPC status code. *)
Module Code.

Inductive t : Set :=
| Canceled | Unknown | InvalidArgument | DeadlineExceeded | NotFound
| AlreadyExists | PermissionDenied | ResourceExhausted | FailedPrecondition
| Aborted | OutOfRange | Unimplemented | Internal | Unavailable | DataLoss
| Unauthenticated.

(** The number each member stands for. *)
Definition value (c : t) : N :=
  match c with
  | Canceled => 1 | Unknown => 2 | InvalidArgument => 3
  | DeadlineExceeded => 4 | NotFound => 5 | AlreadyExists => 6
  | PermissionDenied => 7 | ResourceExhausted => 8
  | FailedPrecondition => 9 | Aborted => 10 | OutOfRange => 11
  | Unimplemented => 12 | Internal => 13 | Unavailable => 14
  | DataLoss => 15 | Unauthenticated => 16
  end%N.

(** [error.code.toString()] in [convertError]: a member of a numeric enum
    is a number, so this is [Number.prototype.toString], the decimal
    numeral. *)
Definition toString (c : t) : string :=
  NilEmpty.string_of_uint (N.to_uint (value c)).

End Code.

(** What a [catch] clause can receive ([error: unknown]).  Instances of
    [Error] are told apart from every other value, and instances of
    [ConnectError] (a subclass of [Error]) from the other errors, because
    [instanceof] is all that [convertError] looks at.

    [JError name message] is an instance of [Error] or of any subclass but
    [ConnectError] ([TypeError], [DOMException], ...).  [JConnectError]
    carries the three properties that are read: [message], [code] and
    [details]; [details] is an array in the library's declaration, the
    source reads it through [?.], so it may be [undefined] here. *)
Inductive unknown : Type :=
| JUndefined
| JNull
| JBoolean (b : bool)
| JNumber (n : number)
| JBigInt (n : Z)
| JString (s : string)
| JSymbol (description : string)
| JFunction (name : string)
| JArray (items : list unknown)
| JObject (properties : list (string * unknown))
| JError (name message : string)
| JConnectError (message : string) (code : Code.t)
                (details : option (list unknown)).

(** [error instanceof ConnectError] *)
Definition instanceof_ConnectError (error : unknown) : bool :=
  match error with
  | JConnectError _ _ _ => true
  | _ => false
  end.

(** [error instanceof Error]: [ConnectError] extends [Error]. *)
Definition instanceof_Error (error : unknown) : bool :=
  match error with
  | JError _ _ | JConnectError _ _ _ => true
  | _ => false
  end.

(** The [message] property of an error or of a plain object, if it has
    one. *)
Definition get_message (error : unknown) : option unknown :=
  match error with
  | JError _ message | JConnectError message _ _ => Some (JString message)
  | JObject properties =>
      snd <$> List.find (fun p => String.eqb (fst p) "message") properties
  | _ => None
  end.

(** An optional property or parameter: absent ([undefined]), [null], or a
    value.  [??] falls back on the first two only. *)
Inductive Optional (A : Type) : Type :=
| Undefined
| Null
| Value (a : A).

Arguments Undefined {A}.
Arguments Null {A}.
Arguments Value {A} a.

(** [x ?? d] *)
Definition nullish_coalesce {A : Type} (x : Optional A) (d : A) : A :=
  match x with
  | Value a => a
  | Undefined | Null => d
  end.

Infix "??" := nullish_coalesce (at level 45, right associativity).

(** ** types.ts *)

(** [class AscndError extends Error] *)
Module AscndError.

Record t : Type := mk {
  name : string;
  message : string;
  code : string;
  details : option (gmap string unknown);
}.

(** The constructor: [super(message); this.name = "AscndError"; ...]. *)
Definition new (message code : string)
    (details : option (gmap string unknown)) : t :=
  {| name := "AscndError"; message := message; code := code;
     details := details |}.

End AscndError.

(** [interface AscndClientConfig].  [timeout?: number] is declared
    optional; a caller from JavaScript can also pass [null]. *)
Record AscndClientConfig : Type := {
  baseUrl : string;
  apiKey : string;
  timeout : Optional number;
}.

(** ** client.ts: [convertError] *)

(** [error.details?.length]: the truth value of the length of the detail
    list, [undefined] (falsy) when there is no list. *)
Definition details_length_truthy (details : option (list unknown)) : bool :=
  match details with
  | Some (_ :: _) => true
  | Some [] | None => false
  end.

(** [{ details: error.details }] *)
Definition details_object (details : option (list unknown))
    : gmap string unknown :=
  {[ "details" := match details with
                  | Some items => JArray items
                  | None => JUndefined
                  end ]}.

Definition convertError (error : unknown) : AscndError.t :=
  match error with
  | JConnectError message code details =>
      AscndError.new message (Code.toString code)
        (if details_length_truthy details
         then Some (details_object details)
         else None)
  | JError _ message => AscndError.new message "UNKNOWN" None
  | _ => AscndError.new "Unknown error occurred" "UNKNOWN" None
  end.

(** ** Message contracts *)

(** The message types are generated from the proto file into
    gen/ascnd_pb, which is not among the sources; types.ts only re-exports
    their names.  Each is modelled from the specification's data model: a
    64-bit integer is a [bigint], an unsigned integer a natural number, a
    timestamp and a period are strings, an absent optional field is
    [None]. *)

(** Modelled from the spec: [BracketInfo] of gen/ascnd_pb. *)
Module BracketInfo.
Record t : Type := { name : string; color : string }.
End BracketInfo.

(** Modelled from the spec: [ViewInfo] of gen/ascnd_pb. *)
Module ViewInfo.
Record t : Type := { slug : string; name : string }.
End ViewInfo.

(** Modelled from the spec: [AnticheatViolation] of gen/ascnd_pb. *)
Module AnticheatViolation.
Inductive FlagType : Set :=
| bounds_exceeded | velocity_exceeded | duplicate_idempotency
| missing_idempotency_key.
Record t : Type := { flagType : FlagType; reason : string }.
End AnticheatViolation.

(** Modelled from the spec: [AnticheatResult] of gen/ascnd_pb. *)
Module AnticheatResult.
Inductive Action : Set := none | flag | shadow_ban | reject.
Record t : Type := {
  passed : bool;
  action : Action;
  violations : list AnticheatViolation.t;
}.
End AnticheatResult.

(** The values of a 64-bit signed integer field. *)
Definition int64_range (z : Z) : bool :=
  ((-9223372036854775808 <=? z) && (z <=? 9223372036854775807))%Z.

Record int64 : Set := Int64 {
  int64_value : Z;
  int64_bounded : int64_range int64_value = true;
}.

(** Modelled from the spec: [SubmitScoreRequest] of gen/ascnd_pb.  The
    score is a 64-bit integer, as the data model has it, so that every
    request of this type can be encoded and sent. *)
Module SubmitScoreRequest.
Record t : Type := {
  leaderboardId : string;
  playerId : string;
  score : int64;
  metadata : option (list Byte.byte);
  idempotencyKey : option string;
}.
End SubmitScoreRequest.

(** Modelled from the spec: [SubmitScoreResponse] of gen/ascnd_pb. *)
Module SubmitScoreResponse.
Record t : Type := {
  scoreId : string;
  rank : N;
  isNewBest : bool;
  wasDeduplicated : bool;
  anticheat : option AnticheatResult.t;
}.
End SubmitScoreResponse.

(** Modelled from the spec: [GetLeaderboardRequest] of gen/ascnd_pb. *)
Module GetLeaderboardRequest.
Record t : Type := {
  leaderboardId : string;
  limit : option Z;
  offset : option N;
  period : option string;
  viewSlug : option string;
}.
End GetLeaderboardRequest.

(** Modelled from the spec: [LeaderboardEntry] of gen/ascnd_pb. *)
Module LeaderboardEntry.
Record t : Type := {
  rank : N;
  playerId : string;
  score : Z;
  metadata : option (list Byte.byte);
  bracket : option BracketInfo.t;
}.
End LeaderboardEntry.

(** Modelled from the spec: [GetLeaderboardResponse] of gen/ascnd_pb. *)
Module GetLeaderboardResponse.
Record t : Type := {
  entries : list LeaderboardEntry.t;
  totalEntries : N;
  periodStart : string;
  periodEnd : option string;
  hasMore : bool;
  view : option ViewInfo.t;
}.
End GetLeaderboardResponse.

(** Modelled from the spec: [GetPlayerRankRequest] of gen/ascnd_pb. *)
Module GetPlayerRankRequest.
Record t : Type := {
  leaderboardId : string;
  playerId : string;
  period : option string;
  viewSlug : option string;
}.
End GetPlayerRankRequest.

(** Modelled from the spec: [GetPlayerRankResponse] of gen/ascnd_pb. *)
Module GetPlayerRankResponse.
Record t : Type := {
  rank : option N;
  score : option Z;
  bestScore : option Z;
  percentile : option number;
  totalEntries : N;
  bracket : option BracketInfo.t;
  globalRank : option N;
}.
End GetPlayerRankResponse.

(** The three methods of [AscndService], with the message type each takes
    and answers. *)
Inductive Method : Set := SubmitScore | GetLeaderboard | GetPlayerRank.

Definition Input (m : Method) : Type :=
  match m with
  | SubmitScore => SubmitScoreRequest.t
  | GetLeaderboard => GetLeaderboardRequest.t
  | GetPlayerRank => GetPlayerRankRequest.t
  end.

Definition Output (m : Method) : Type :=
  match m with
  | SubmitScore => SubmitScoreResponse.t
  | GetLeaderboard => GetLeaderboardResponse.t
  | GetPlayerRank => GetPlayerRankResponse.t
  end.

(** ** The transport, as the client sees it *)

(** The transport and the client that wraps it come from the libraries
    @connectrpc/connect and @connectrpc/connect-web.  client.ts relies on
    this much of them: a call is a request with a header set and a
    message; it passes through the interceptors, the first of the list
    first, and then goes out; it ends with a response or with a thrown
    value. *)

(** An outgoing call as an interceptor receives it: the header set
    ([req.header], a [Headers] object whose names are lower-case) and the
    request message. *)
Record UnaryRequest (m : Method) : Type := {
  header : gmap string string;
  message : Input m;
}.

Arguments header {m} _.
Arguments message {m} _.

(** How a call, a constructor or a function body completes: with a value,
    or by throwing one.  A promise that rejects with [e] is [Throw e] for
    the code that awaits it. *)
Inductive Completion (E A : Type) : Type :=
| Return (a : A)
| Throw (e : E).

Arguments Return {E A} a.
Arguments Throw {E A} e.

(** A request that went out on the wire: the transport has called
    [fetch] with it. *)
Definition Sent : Type := { m : Method & UnaryRequest m }.

(** All that lies outside the repository: the headers the transport gives
    a call before the interceptors run, what the network and the service
    answer to a request given the ones sent before it (a response, or a
    thrown value of any shape), the message of the [TypeError] with which
    the header set refuses a name and a value, what the transport makes
    of a failure of the call chain before the client's method rejects
    with it (the library wraps such a failure in a [ConnectError]), and
    the requests sent so far, oldest first. *)
Record World : Type := {
  requestHeader : Method -> gmap string string;
  respond : forall m : Method,
      list Sent -> UnaryRequest m -> Completion unknown (Output m);
  headerError : string -> string -> string;
  reject : unknown -> unknown;
  sent : list Sent;
}.

(** Code that may use the network and may throw an [E]. *)
Definition Task (E A : Type) : Type := World -> Completion E A * World.

Definition ret {E A : Type} (a : A) : Task E A := fun w => (Return a, w).

Definition throw {E A : Type} (e : E) : Task E A := fun w => (Throw e, w).

(** One step after the other; a throw ends the sequence. *)
Definition bind {E A B : Type} (c : Task E A) (k : A -> Task E B)
    : Task E B :=
  fun w =>
    match c w with
    | (Return a, w') => k a w'
    | (Throw e, w') => (Throw e, w')
    end.

(** [try { return await c } catch (error) { handler }] *)
Definition try_catch {E E' A : Type} (c : Task E A)
    (handler : E -> Task E' A) : Task E' A :=
  fun w =>
    match c w with
    | (Return a, w') => (Return a, w')
    | (Throw e, w') => handler e w'
    end.

(** *** The header set of a call

    [req.header] is a [Headers] object of the Fetch standard.  A string
    of this model has code units below 256, so it is a byte string as
    [set] wants its arguments. *)

(** HTTP whitespace: tab, line feed, carriage return and space. *)
Definition http_whitespace (c : ascii) : bool :=
  let n := N_of_ascii c in
  ((n =? 9) || (n =? 10) || (n =? 13) || (n =? 32))%N.

Fixpoint strip_leading (s : string) : string :=
  match s with
  | EmptyString => ""
  | String c rest => if http_whitespace c then strip_leading rest else s
  end.

Fixpoint strip_trailing (s : string) : string :=
  match s with
  | EmptyString => ""
  | String c rest =>
      match strip_trailing rest with
      | EmptyString => if http_whitespace c then "" else String c ""
      | kept => String c kept
      end
  end.

(** A header value is normalised first: the HTTP whitespace at its
    beginning and at its end is removed. *)
Definition header_value_normalize (value : string) : string :=
  strip_trailing (strip_leading value).

(** A normalised value is a header value when it has none of NUL, line
    feed and carriage return. *)
Fixpoint header_value_valid (value : string) : bool :=
  match value with
  | EmptyString => true
  | String c rest =>
      let n := N_of_ascii c in
      negb ((n =? 0) || (n =? 10) || (n =? 13))%N && header_value_valid rest
  end.

(** The characters of a token, of which a header name is made. *)
Definition token_char (c : ascii) : bool :=
  let n := N_of_ascii c in
  (((48 <=? n) && (n <=? 57)) || ((65 <=? n) && (n <=? 90)) ||
   ((97 <=? n) && (n <=? 122)) ||
   existsb (N.eqb n) [33; 35; 36; 37; 38; 39; 42; 43; 45; 46; 94; 95; 96;
                      124; 126])%N.

Fixpoint all_token_chars (name : string) : bool :=
  match name with
  | EmptyString => true
  | String c rest => token_char c && all_token_chars rest
  end.

Definition header_name_valid (name : string) : bool :=
  match name with
  | EmptyString => false
  | String _ _ => all_token_chars name
  end.

(** Names are kept in lower case. *)
Definition byte_lowercase_char (c : ascii) : ascii :=
  let n := N_of_ascii c in
  if ((65 <=? n) && (n <=? 90))%N then ascii_of_N (n + 32) else c.

Fixpoint byte_lowercase (name : string) : string :=
  match name with
  | EmptyString => ""
  | String c rest => String (byte_lowercase_char c) (byte_lowercase rest)
  end.

(** [req.header.set(name, value)]: the value is normalised; a name that is
    no token or a value that is no header value is refused with a
    [TypeError]; otherwise the entry of the name is created or replaced,
    and the rest of the request is untouched. *)
Definition header_set {m : Method} (name value : string)
    (req : UnaryRequest m) : Task unknown (UnaryRequest m) :=
  if header_name_valid name
     && header_value_valid (header_value_normalize value)
  then ret {| header := <[byte_lowercase name :=
                           header_value_normalize value]> (header req);
              message := message req |}
  else fun w => (Throw (JError "TypeError" (headerError w name value)), w).

(** The innermost link of a call chain: the request goes out and the
    answer comes back. *)
Definition fetch (m : Method) (req : UnaryRequest m)
    : Task unknown (Output m) :=
  fun w =>
    (respond w m (sent w) req,
     {| requestHeader := requestHeader w; respond := respond w;
        headerError := headerError w; reject := reject w;
        sent := sent w ++ [existT m req] |}).

(** The library's [Interceptor]: given the next link, a link. *)
Definition Interceptor : Type :=
  forall m : Method,
    (UnaryRequest m -> Task unknown (Output m)) ->
    UnaryRequest m -> Task unknown (Output m).

(** The first interceptor of the list is the outermost link. *)
Definition applyInterceptors (interceptors : list Interceptor) (m : Method)
    (next : UnaryRequest m -> Task unknown (Output m))
    : UnaryRequest m -> Task unknown (Output m) :=
  fold_right (fun i n => i m n) next interceptors.

(** The options [createGrpcWebTransport] is given, which the transport it
    returns keeps. *)
Module Transport.

Record t : Type := {
  baseUrl : string;
  interceptors : list Interceptor;
  defaultTimeoutMs : number;
}.

End Transport.

Definition createGrpcWebTransport (options : Transport.t) : Transport.t :=
  options.

(** [Client<typeof AscndService>]: [createClient] wraps the transport, and
    a method call of the client is a unary call of the transport, through
    the interceptors; when the chain fails, the call rejects with what the
    transport makes of the failure. *)
Definition Client : Type := Transport.t.

Definition createClient (transport : Transport.t) : Client := transport.

Definition unary (c : Client) (m : Method) (request : Input m)
    : Task unknown (Output m) :=
  fun w =>
    match applyInterceptors (Transport.interceptors c) m (fetch m)
            {| header := requestHeader w m; message := request |} w with
    | (Return response, w') => (Return response, w')
    | (Throw reason, w') => (Throw (reject w' reason), w')
    end.

(** ** client.ts: [AscndClient] *)

Record AscndClient : Type := { client : Client }.

(** The truth value of a string: [!s] holds exactly for the empty one. *)
Definition truthy (s : string) : bool :=
  match s with
  | EmptyString => false
  | String _ _ => true
  end.

(** [/\/$/] tried at the start of [s]: a slash, then the end of the input
    (there is no [m] flag, so [$] is the end of the whole string). *)
Definition slash_at_end (s : string) : bool :=
  match s with
  | String c EmptyString => Ascii.eqb c "/"
  | _ => false
  end.

(** [s.replace(/\/$/, "")]: the regular expression is not global, so the
    leftmost match, if any, is replaced by the empty string. *)
Fixpoint replace_slash_at_end (s : string) : string :=
  if slash_at_end s then ""
  else match s with
       | EmptyString => ""
       | String c rest => String c (replace_slash_at_end rest)
       end.

(** The interceptor the constructor builds around [config.apiKey]. *)
Definition authInterceptor (config : AscndClientConfig) : Interceptor :=
  fun m next req =>
    bind (header_set "x-api-key" (apiKey config) req) next.

Definition constructor (config : AscndClientConfig)
    : Task unknown AscndClient :=
  if negb (truthy (baseUrl config)) then
    throw (JError "Error" "baseUrl is required")
  else if negb (truthy (apiKey config)) then
    throw (JError "Error" "apiKey is required")
  else
    let transport := createGrpcWebTransport
      {| Transport.baseUrl := replace_slash_at_end (baseUrl config);
         Transport.interceptors := [authInterceptor config];
         Transport.defaultTimeoutMs := timeout config ?? 30000%float |} in
    ret {| client := createClient transport |}.

Definition submitScore (self : AscndClient)
    (request : SubmitScoreRequest.t)
    : Task AscndError.t SubmitScoreResponse.t :=
  try_catch (unary (client self) SubmitScore request)
    (fun error => throw (convertError error)).

Definition getLeaderboard (self : AscndClient)
    (request : GetLeaderboardRequest.t)
    : Task AscndError.t GetLeaderboardResponse.t :=
  try_catch (unary (client self) GetLeaderboard request)
    (fun error => throw (convertError error)).

Definition getPlayerRank (self : AscndClient)
    (request : GetPlayerRankRequest.t)
    : Task AscndError.t GetPlayerRankResponse.t :=
  try_catch (unary (client self) GetPlayerRank request)
    (fun error => throw (convertError error)).

(** The operation of the facade for each method of the service. *)
Definition operation (m : Method)
    : AscndClient -> Input m -> Task AscndError.t (Output m) :=
  match m with
  | SubmitScore => submitScore
  | GetLeaderboard => getLeaderboard
  | GetPlayerRank => getPlayerRank
  end.

(** ** Vocabulary of the properties *)

(** The specification's [ConfigurationError]: the plain [Error] that the
    constructor throws for a missing option. *)
Definition ConfigurationError (e : unknown) : Prop :=
  e = JError "Error" "baseUrl is required" \/
  e = JError "Error" "apiKey is required".

(** The last character of [s] is a slash. *)
Fixpoint ends_with_slash (s : string) : bool :=
  match s with
  | EmptyString => false
  | String c EmptyString => Ascii.eqb c "/"
  | String _ rest => ends_with_slash rest
  end.

(** What the caller of an operation is to see of a transport call: the
    response as it is, or the converted failure. *)
Definition surfaced {A : Type} (r : Completion unknown A * World)
    : Completion AscndError.t A * World :=
  match r with
  | (Return response, w') => (Return response, w')
  | (Throw error, w') => (Throw (convertError error), w')
  end.

(** The transport a client was built on. *)
Definition transport_of (self : AscndClient) : Transport.t := client self.

(** The request that leaves for the wire when a client built from [config]
    is asked for method [m] with [request] in world [w]. *)
Definition issued (config : AscndClientConfig) (w : World) (m : Method)
    (request : Input m) : UnaryRequest m :=
  {| header := <["x-api-key" := header_value_normalize (apiKey config)]>
                 (requestHeader w m);
     message := request |}.

(** What the method of the client gives for a request that went out:
    the response, or what the transport makes of the failure. *)
Definition answered (w : World) (m : Method) (req : UnaryRequest m)
    : Completion unknown (Output m) :=
  match respond w m (sent w) req with
  | Return response => Return response
  | Throw reason => Throw (reject w reason)
  end.

(** The header set accepts the key of [config]. *)
Definition key_accepted (config : AscndClientConfig) : bool :=
  header_value_valid (header_value_normalize (apiKey config)).

(** The [TypeError] of the header set for the key of [config]. *)
Definition key_refused (config : AscndClientConfig) (w : World) : unknown :=
  JError "TypeError" (headerError w "x-api-key" (apiKey config)).



(** The world once [req] has gone out. *)
Definition after_sending (w : World) (m : Method) (req : UnaryRequest m)
    : World :=
  {| requestHeader := requestHeader w; respond := respond w;
     headerError := headerError w; reject := reject w;
     sent := sent w ++ [existT m req] |}.

(** ** Sample data *)

(** [ConnectError.from] of the library, by which the transport turns the
    failure of a call chain into a [ConnectError]: a [ConnectError] is
    kept, an abort is reported as canceled, any other error and any
    other value as unknown, each with its text after the name of the
    code.  The text of a value that is no error is [String(value)]; the
    sample worlds throw errors and strings only, and the text of a
    number, a function, an array or an object is not modelled and is left
    empty. *)
Definition ConnectError_from (reason : unknown) : unknown :=
  let with_code (code : Code.t) (name text : string) :=
    JConnectError
      (match text with
       | EmptyString => "[" +:+ name +:+ "]"
       | _ => "[" +:+ name +:+ "] " +:+ text
       end) code (Some []) in
  match reason with
  | JConnectError _ _ _ => reason
  | JError name message =>
      if String.eqb name "AbortError"
      then with_code Code.Canceled "canceled" message
      else with_code Code.Unknown "unknown" message
  | JString s => with_code Code.Unknown "unknown" s
  | JUndefined => with_code Code.Unknown "unknown" "undefined"
  | JNull => with_code Code.Unknown "unknown" "null"
  | JBoolean b =>
      with_code Code.Unknown "unknown" (if b then "true" else "false")
  | JBigInt n =>
      with_code Code.Unknown "unknown" (NilZero.string_of_int (Z.to_int n))
  | JSymbol description =>
      with_code Code.Unknown "unknown" ("Symbol(" +:+ description +:+ ")")
  | JNumber _ | JFunction _ | JArray _ | JObject _ =>
      with_code Code.Unknown "unknown" ""
  end.

(** The message of the [TypeError] of the header set in the sample
    worlds. *)
Definition sample_headerError (name value : string) : string :=
  "Headers.set: invalid header value for " +:+ name.

Definition sample_config (url key : string) (t : Optional number)
    : AscndClientConfig :=
  {| baseUrl := url; apiKey := key; timeout := t |}.

(** A world where nothing was sent yet and every call is answered with a
    thrown string. *)
Definition quiet_world : World :=
  {| requestHeader :=
       fun _ => {[ "content-type" := "application/grpc-web+proto" ]};
     respond := fun _ _ _ => Throw (JString "offline");
     headerError := sample_headerError;
     reject := ConnectError_from;
     sent := [] |}.

Definition sample_client : AscndClient :=
  {| client := createClient (createGrpcWebTransport
       {| Transport.baseUrl := "https://api.ascnd.gg";
          Transport.interceptors :=
            [authInterceptor
               (sample_config "https://api.ascnd.gg" "secret" Undefined)];
          Transport.defaultTimeoutMs := 30000%float |}) |}.

Definition sample_submit : SubmitScoreRequest.t :=
  {| SubmitScoreRequest.leaderboardId := "high-scores";
     SubmitScoreRequest.playerId := "p1";
     SubmitScoreRequest.score := Int64 1000 eq_refl;
     SubmitScoreRequest.metadata := None;
     SubmitScoreRequest.idempotencyKey := Some "k-1" |}.

Definition sample_submitted : SubmitScoreResponse.t :=
  {| SubmitScoreResponse.scoreId := "score-1";
     SubmitScoreResponse.rank := 1;
     SubmitScoreResponse.isNewBest := true;
     SubmitScoreResponse.wasDeduplicated := false;
     SubmitScoreResponse.anticheat := None |}.

Definition sample_board : GetLeaderboardRequest.t :=
  {| GetLeaderboardRequest.leaderboardId := "no-such-board";
     GetLeaderboardRequest.limit := Some 10%Z;
     GetLeaderboardRequest.offset := None;
     GetLeaderboardRequest.period := None;
     GetLeaderboardRequest.viewSlug := None |}.

Definition sample_rank : GetPlayerRankRequest.t :=
  {| GetPlayerRankRequest.leaderboardId := "high-scores";
     GetPlayerRankRequest.playerId := "p1";
     GetPlayerRankRequest.period := None;
     GetPlayerRankRequest.viewSlug := None |}.

(** A world where a score submission succeeds, a leaderboard is not found
    (a protocol error without details) and the network fails under a
    rank query (the [TypeError] of [fetch]). *)
Definition demo_world : World :=
  {| requestHeader := fun _ => ∅;
     respond := fun m _ _ =>
       match m return Completion unknown (Output m) with
       | SubmitScore => Return sample_submitted
       | GetLeaderboard =>
           Throw (JConnectError "[not_found] no such leaderboard"
                    Code.NotFound (Some []))
       | GetPlayerRank => Throw (JError "TypeError" "Failed to fetch")
       end;
     headerError := sample_headerError;
     reject := ConnectError_from;
     sent := [] |}.

(** ** A caller that makes several calls *)

(** One call of the facade: the operation and its request. *)
Definition Call : Type := { m : Method & Input m }.

(** The calls made one after the other through the same client, each
    awaited before the next, whatever each of them gives. *)
Fixpoint run_calls (self : AscndClient) (calls : list Call) (w : World)
    : World :=
  match calls with
  | [] => w
  | existT m request :: rest =>
      run_calls self rest (snd (operation m self request w))
  end.

(** The request [s] has the header [x-api-key] with the value [key]. *)
Definition carries_key (key : string) (s : Sent) : Prop :=
  header (projT2 s) !! "x-api-key" = Some key.

(** The method and the message of a request, without its headers. *)
Definition call_of (s : Sent) : Call :=
  existT (projT1 s) (message (projT2 s)).

(** ** The example programs *)

(** The built-ins the examples use.  A string is taken as the sequence of
    its code units, which is what [length], [slice] and the padding
    count. *)

(** [String(n)] for a non-negative integer below [2^53]. *)
Definition String_of_N (n : N) : string :=
  NilEmpty.string_of_uint (N.to_uint n).

(** [String(z)] for a [bigint]. *)
Definition String_of_Z (z : Z) : string :=
  NilZero.string_of_int (Z.to_int z).

Fixpoint spaces (n : nat) : string :=
  match n with
  | O => ""
  | S n' => String " " (spaces n')
  end.

(** [s.padStart(n)]: spaces in front until the length is [n]; a longer
    string is left as it is. *)
Definition padStart (n : nat) (s : string) : string :=
  spaces (n - String.length s) +:+ s.

(** [s.padEnd(n)] *)
Definition padEnd (n : nat) (s : string) : string :=
  s +:+ spaces (n - String.length s).

(** [s.slice(0, n)] *)
Definition slice_to (n : nat) (s : string) : string := substring 0 n s.

(** The line feed of a template literal. *)
Definition LF : string := String (ascii_of_nat 10) "".

(** What ends a program from the outside: a value thrown by the
    constructor, or the [AscndError] of an operation. *)
Inductive Thrown : Type :=
| ThrownValue (e : unknown)
| ThrownAscndError (e : AscndError.t).

(** A running program: the world it calls into and the lines it has
    written with [console.log]. *)
Record Process : Type := {
  world : World;
  stdout : list string;
}.

Definition Program (A : Type) : Type :=
  Process -> Completion Thrown A * Process.


Definition and_then {A B : Type} (c : Program A) (k : A -> Program B)
    : Program B :=
  fun p =>
    match c p with
    | (Return a, p') => k a p'
    | (Throw e, p') => (Throw e, p')
    end.

Notation "'let!' x ':=' c 'in' k" := (and_then c (fun x => k))
  (at level 10, x name, c at level 100, k at level 200).
Notation "'run!' c 'in' k" := (and_then c (fun _ => k))
  (at level 10, c at level 100, k at level 200).

(** [console.log(line)] *)
Definition console_log (line : string) : Program unit :=
  fun p =>
    (Return tt, {| world := world p; stdout := stdout p ++ [line] |}).

(** [new AscndClient(config)] at the top level of a program. *)
Definition new_AscndClient (config : AscndClientConfig)
    : Program AscndClient :=
  fun p =>
    match constructor config (world p) with
    | (Return self, w) => (Return self, {| world := w; stdout := stdout p |})
    | (Throw e, w) =>
        (Throw (ThrownValue e), {| world := w; stdout := stdout p |})
    end.

(** [await] of an operation at the top level of a program. *)
Definition await {A : Type} (call : Task AscndError.t A) : Program A :=
  fun p =>
    match call (world p) with
    | (Return a, w) => (Return a, {| world := w; stdout := stdout p |})
    | (Throw e, w) =>
        (Throw (ThrownAscndError e), {| world := w; stdout := stdout p |})
    end.


(** [process.env.NAME!] where a string is expected.  A variable that is
    not set is [undefined]; the constructor only tests it with [!], which
    holds of [undefined] as of the empty string, and a message takes it as
    the field left out, which reads as the empty string. *)
Definition getenv (env : gmap string string) (name : string) : string :=
  default "" (env !! name).

(** examples/submit-score/src/index.ts *)
Definition submit_score_main (env : gmap string string) : Program unit :=
  let! client := new_AscndClient
    {| baseUrl := "https://api.ascnd.gg";
       apiKey := getenv env "ASCND_API_KEY";
       timeout := Undefined |} in
  let! result := await (submitScore client
    {| SubmitScoreRequest.leaderboardId := getenv env "LEADERBOARD_ID";
       SubmitScoreRequest.playerId := "player_example_001";
       SubmitScoreRequest.score := Int64 42500 eq_refl;
       SubmitScoreRequest.metadata := None;
       SubmitScoreRequest.idempotencyKey := None |}) in
  run! console_log "Score submitted!" in
  run! console_log
    ("  Rank: #" +:+ String_of_N (SubmitScoreResponse.rank result)) in
  console_log
    ("  New personal best: " +:+
     (if SubmitScoreResponse.isNewBest result then "Yes!" else "No")).

(** examples/leaderboard/src/index.ts: the line of one entry. *)
Definition leaderboard_row (entry : LeaderboardEntry.t) : string :=
  let rank := padStart 4 (String_of_N (LeaderboardEntry.rank entry)) in
  let player :=
    padEnd 18 (slice_to 18 (LeaderboardEntry.playerId entry)) in
  let score := padStart 10 (String_of_Z (LeaderboardEntry.score entry)) in
  rank +:+ "  | " +:+ player +:+ " | " +:+ score.

(** examples/leaderboard/src/index.ts: the two lines above the
    entries. *)
Definition leaderboard_heading : string :=
  "Rank  | Player             | Score".

Definition leaderboard_rule : string :=
  "------+--------------------+------------".


(** The configuration of both examples. *)
Definition example_config (env : gmap string string) : AscndClientConfig :=
  {| baseUrl := "https://api.ascnd.gg";
     apiKey := getenv env "ASCND_API_KEY";
     timeout := Undefined |}.

(** An environment with both variables of the examples. *)
Definition sample_env : gmap string string :=
  {[ "ASCND_API_KEY" := "secret"; "LEADERBOARD_ID" := "high-scores" ]}.

(** The first two lines of the leaderboard of the example's README, with
    more to come. *)
Definition sample_leaderboard : GetLeaderboardResponse.t :=
  {| GetLeaderboardResponse.entries :=
       [ {| LeaderboardEntry.rank := 1;
            LeaderboardEntry.playerId := "player_champion";
            LeaderboardEntry.score := 999999;
            LeaderboardEntry.metadata := None;
            LeaderboardEntry.bracket := None |};
         {| LeaderboardEntry.rank := 2;
            LeaderboardEntry.playerId := "player_silver";
            LeaderboardEntry.score := 875000;
            LeaderboardEntry.metadata := None;
            LeaderboardEntry.bracket := None |} ];
     GetLeaderboardResponse.totalEntries := 1523;
     GetLeaderboardResponse.periodStart := "2024-01-01T00:00:00Z";
     GetLeaderboardResponse.periodEnd := None;
     GetLeaderboardResponse.hasMore := true;
     GetLeaderboardResponse.view := None |}.

(** A world that answers a submission with rank 42 and a leaderboard
    query with [sample_leaderboard]. *)
Definition board_world : World :=
  {| requestHeader := fun _ => ∅;
     respond := fun m _ _ =>
       match m return Completion unknown (Output m) with
       | SubmitScore =>
           Return {| SubmitScoreResponse.scoreId := "score-1";
                     SubmitScoreResponse.rank := 42;
                     SubmitScoreResponse.isNewBest := true;
                     SubmitScoreResponse.wasDeduplicated := false;
                     SubmitScoreResponse.anticheat := None |}
       | GetLeaderboard => Return sample_leaderboard
       | GetPlayerRank => Throw (JError "TypeError" "Failed to fetch")
       end;
     headerError := sample_headerError;
     reject := ConnectError_from;
     sent := [] |}.

(** * Properties *)

(** ** Helper lemmas *)

Lemma truthy_false (s : string) : truthy s = false <-> s = "".
Proof. destruct s; simpl; split; congruence. Qed.

Lemma truthy_true (s : string) : truthy s = true <-> s <> "".
Proof. destruct s; simpl; split; congruence. Qed.

(** A configuration with both options present builds this client, and
    leaves the world as it was. *)
Lemma constructor_valid (config : AscndClientConfig) (w : World) :
  baseUrl config <> "" -> apiKey config <> "" ->
  constructor config w =
    (Return {| client :=
        {| Transport.baseUrl := replace_slash_at_end (baseUrl config);
           Transport.interceptors := [authInterceptor config];
           Transport.defaultTimeoutMs := timeout config ?? 30000%float |} |},
     w).
Proof.
  intros Hurl%truthy_true Hkey%truthy_true.
  unfold constructor. rewrite Hurl, Hkey. reflexivity.
Qed.

(** The header set, asked for [x-api-key]. *)
Lemma header_set_x_api_key (m : Method) (value : string)
    (req : UnaryRequest m) :
  header_set "x-api-key" value req =
    if header_value_valid (header_value_normalize value)
    then ret {| header := <["x-api-key" := header_value_normalize value]>
                            (header req);
                message := message req |}
    else fun w =>
           (Throw (JError "TypeError" (headerError w "x-api-key" value)), w).
Proof. reflexivity. Qed.

(** A call through a client whose only interceptor is the auth
    interceptor, with a key that the header set accepts, sends the
    stamped request and nothing else. *)
Lemma unary_auth (config : AscndClientConfig) (c : Client) (m : Method)
    (request : Input m) (w : World) :
  Transport.interceptors c = [authInterceptor config] ->
  key_accepted config = true ->
  unary c m request w =
    (answered w m (issued config w m request),
     after_sending w m (issued config w m request)).
Proof.
  intros Hi Hk. unfold unary. rewrite Hi.
  cbn [applyInterceptors fold_right]. unfold authInterceptor, bind.
  rewrite header_set_x_api_key. unfold key_accepted in Hk. rewrite Hk.
  unfold ret, fetch, answered, issued, after_sending. cbn.
  destruct (respond w m (sent w) _); reflexivity.
Qed.

(** With a key that the header set refuses, nothing is sent. *)
Lemma unary_auth_refused (config : AscndClientConfig) (c : Client)
    (m : Method) (request : Input m) (w : World) :
  Transport.interceptors c = [authInterceptor config] ->
  key_accepted config = false ->
  unary c m request w = (Throw (reject w (key_refused config w)), w).
Proof.
  intros Hi Hk. unfold unary. rewrite Hi.
  cbn [applyInterceptors fold_right]. unfold authInterceptor, bind.
  rewrite header_set_x_api_key. unfold key_accepted in Hk. rewrite Hk.
  reflexivity.
Qed.




(** Each operation is the transport call with its failures converted. *)
Lemma operation_unfold (m : Method) (self : AscndClient) (request : Input m)
    (w : World) :
  operation m self request w =
    match unary (client self) m request w with
    | (Return response, w') => (Return response, w')
    | (Throw error, w') => (Throw (convertError error), w')
    end.
Proof. destruct m; reflexivity. Qed.

Lemma replace_slash_at_end_app (s : string) :
  replace_slash_at_end (s +:+ "/") = s.
Proof.
  induction s as [|c s IH]; [reflexivity|].
  change (String c s +:+ "/") with (String c (s +:+ "/")).
  cbn [replace_slash_at_end]. rewrite IH.
  destruct s; reflexivity.
Qed.

Lemma replace_slash_at_end_id (s : string) :
  ends_with_slash s = false -> replace_slash_at_end s = s.
Proof.
  induction s as [|c s IH]; [reflexivity|].
  intros H. cbn [replace_slash_at_end].
  destruct s as [|c' s'].
  - simpl in *. rewrite H. reflexivity.
  - change (slash_at_end (String c (String c' s'))) with false.
    cbv iota. f_equal. apply IH. exact H.
Qed.

(** ** The code run on sample inputs *)

Example replace_slash_at_end_samples :
  replace_slash_at_end "https://api.ascnd.gg/" = "https://api.ascnd.gg" /\
  replace_slash_at_end "https://api.ascnd.gg" = "https://api.ascnd.gg" /\
  replace_slash_at_end "https://api.ascnd.gg/v1" = "https://api.ascnd.gg/v1" /\
  replace_slash_at_end "//" = "/" /\
  replace_slash_at_end "/" = "" /\
  replace_slash_at_end "" = "".
Proof. repeat split. Qed.

Example header_value_normalize_samples :
  header_value_normalize " secret " = "secret" /\
  header_value_normalize "secret" = "secret" /\
  header_value_normalize "two words" = "two words" /\
  header_value_normalize (LF +:+ "key" +:+ LF) = "key" /\
  header_value_normalize "  " = "" /\
  header_value_valid "secret" = true /\
  header_value_valid ("a" +:+ LF +:+ "b") = false.
Proof. repeat split. Qed.

Example submitScore_sample :
  submitScore sample_client sample_submit demo_world =
    (Return sample_submitted,
     after_sending demo_world SubmitScore
       {| header := {[ "x-api-key" := "secret" ]};
          message := sample_submit : Input SubmitScore |}).
Proof. reflexivity. Qed.

Example getLeaderboard_sample :
  fst (getLeaderboard sample_client sample_board demo_world) =
    Throw (AscndError.mk "AscndError" "[not_found] no such leaderboard"
             "5" None).
Proof. reflexivity. Qed.

Example getPlayerRank_sample :
  fst (getPlayerRank sample_client sample_rank demo_world) =
    Throw (AscndError.mk "AscndError" "[unknown] Failed to fetch" "2" None).
Proof. reflexivity. Qed.

Example convertError_details_sample :
  AscndError.details
    (convertError
       (JConnectError "[invalid_argument] bad score" Code.InvalidArgument
          (Some [JObject [("type", JString "ascnd.v1.ScoreError")]])))
  = Some {[ "details" :=
              JArray [JObject [("type", JString "ascnd.v1.ScoreError")]] ]}.
Proof. reflexivity. Qed.

(** ** The error normalizer *)

(** C1, as the code has it: a [ConnectError] is converted to an
    [AscndError] with the same message, with the string form of its code,
    which is the decimal numeral of the numeric enum member (["5"] for a
    not-found error), and with [{details: raw.details}] when the detail
    list has an element, no details when the list is empty or missing. *)
Theorem convertError_ConnectError (message : string) (code : Code.t)
    (details : option (list unknown)) :
  let e := convertError (JConnectError message code details) in
  AscndError.message e = message /\
  AscndError.code e = Code.toString code /\
  Code.toString code =
    NilEmpty.string_of_uint (N.to_uint (Code.value code)) /\
  AscndError.details e =
    match details with
    | Some (d :: ds) => Some {[ "details" := JArray (d :: ds) ]}
    | Some [] | None => None
    end /\
  AscndError.name e = "AscndError" /\
  Code.toString Code.NotFound = "5".
Proof.
  cbv zeta. split; [reflexivity|]. split; [reflexivity|].
  split; [reflexivity|]. split; [|split; reflexivity].
  destruct details as [[|d ds]|]; reflexivity.
Qed.

(** C1, the claim as stated fails: a not-found protocol error with no
    details is converted to an error whose code is ["5"], not
    ["NOT_FOUND"]. *)
Lemma convertError_NotFound_code :
  let raw := JConnectError "[not_found] no such leaderboard"
               Code.NotFound (Some []) in
  AscndError.code (convertError raw) = "5" /\
  AscndError.code (convertError raw) <> "NOT_FOUND" /\
  AscndError.details (convertError raw) = None.
Proof.
  cbv zeta. split; [reflexivity|]. split; [discriminate|reflexivity].
Qed.

(** C7: an instance of [Error] that is not a [ConnectError] is converted
    to an [AscndError] with the error's own message and code ["UNKNOWN"],
    without details. *)
Theorem convertError_Error (error : unknown) (message : string) :
  instanceof_ConnectError error = false ->
  instanceof_Error error = true ->
  get_message error = Some (JString message) ->
  convertError error = AscndError.new message "UNKNOWN" None.
Proof.
  destruct error; simpl; try discriminate.
  intros _ _ [= ->]. reflexivity.
Qed.

(** The plain error with message ["boom"]. *)
Lemma convertError_Error_witness :
  convertError (JError "Error" "boom") =
    AscndError.mk "AscndError" "boom" "UNKNOWN" None.
Proof.
  apply (convertError_Error (JError "Error" "boom") "boom"); reflexivity.
Defined.

(** C8: a value that is not a [ConnectError] and has no message is
    converted to the [AscndError] with message ["Unknown error occurred"]
    and code ["UNKNOWN"], without details; and every value whatever is
    answered with an [AscndError], by one of the three rules: the code of
    a [ConnectError], the message of another error with ["UNKNOWN"], or
    the fallback. *)
Theorem convertError_fallback (error : unknown) :
  (instanceof_ConnectError error = false ->
   get_message error = None ->
   AscndError.message (convertError error) = "Unknown error occurred" /\
   AscndError.code (convertError error) = "UNKNOWN" /\
   AscndError.details (convertError error) = None) /\
  AscndError.name (convertError error) = "AscndError" /\
  ((instanceof_ConnectError error = true /\
    exists code : Code.t,
      AscndError.code (convertError error) = Code.toString code) \/
   (instanceof_ConnectError error = false /\ instanceof_Error error = true /\
    get_message error
      = Some (JString (AscndError.message (convertError error))) /\
    AscndError.code (convertError error) = "UNKNOWN" /\
    AscndError.details (convertError error) = None) \/
   (instanceof_Error error = false /\
    convertError error =
      AscndError.mk "AscndError" "Unknown error occurred" "UNKNOWN" None)).
Proof.
  split; [|split].
  - destruct error; cbn; try discriminate; intros _ _; repeat split.
  - destruct error; reflexivity.
  - destruct error; cbn;
      try (right; right; split; reflexivity).
    + right; left. repeat split.
    + left. split; [reflexivity|]. exists code. reflexivity.
Qed.

(** A thrown string, a thrown number and a thrown plain object. *)
Lemma convertError_fallback_witness :
  AscndError.message (convertError (JString "oops"))
    = "Unknown error occurred" /\
  AscndError.code (convertError (JString "oops")) = "UNKNOWN" /\
  AscndError.details (convertError (JString "oops")) = None /\
  AscndError.code (convertError (JNumber 42%float)) = "UNKNOWN" /\
  AscndError.message
    (convertError (JObject [("status", JNumber 503%float)]))
    = "Unknown error occurred".
Proof.
  destruct (proj1 (convertError_fallback (JString "oops")))
    as (Hm & Hc & Hd); [reflexivity | reflexivity |].
  split; [exact Hm|]. split; [exact Hc|]. split; [exact Hd|]. split.
  - apply (proj1 (convertError_fallback (JNumber 42%float))); reflexivity.
  - apply (proj1 (convertError_fallback
                    (JObject [("status", JNumber 503%float)])));
      reflexivity.
Defined.

(** C9: the conversion looks at the class of the value, not at its
    message.  An instance of [Error] keeps its message, the empty one
    too, with the code ["UNKNOWN"] when it is no [ConnectError]; a value
    that is not an instance of [Error] gets the fallback message and
    ["UNKNOWN"], also when it has a [message] property. *)
Theorem convertError_dispatch_on_class (error : unknown) :
  (instanceof_Error error = true ->
   get_message error =
     Some (JString (AscndError.message (convertError error))) /\
   (instanceof_ConnectError error = false ->
    AscndError.code (convertError error) = "UNKNOWN")) /\
  (instanceof_Error error = false ->
   AscndError.message (convertError error) = "Unknown error occurred" /\
   AscndError.code (convertError error) = "UNKNOWN" /\
   AscndError.details (convertError error) = None) /\
  (forall name : string,
     convertError (JError name "") =
       AscndError.mk "AscndError" "" "UNKNOWN" None) /\
  convertError (JObject [("message", JString "boom")]) =
    AscndError.mk "AscndError" "Unknown error occurred" "UNKNOWN" None.
Proof.
  split; [|split; [|split]].
  - destruct error; cbn; try discriminate; intros _; split;
      try reflexivity; discriminate.
  - destruct error; cbn; try discriminate; intros _; repeat split.
  - reflexivity.
  - reflexivity.
Qed.

(** A [TypeError] with an empty message, and a plain object with a
    message. *)
Lemma convertError_dispatch_on_class_witness :
  (get_message (JError "TypeError" "")
     = Some (JString (AscndError.message
                        (convertError (JError "TypeError" "")))) /\
   AscndError.message (convertError (JError "TypeError" "")) = "" /\
   AscndError.code (convertError (JError "TypeError" "")) = "UNKNOWN") /\
  AscndError.message (convertError (JObject [("message", JString "boom")]))
    = "Unknown error occurred" /\
  AscndError.code (convertError (JObject [("message", JString "boom")]))
    = "UNKNOWN".
Proof.
  destruct (proj1 (convertError_dispatch_on_class (JError "TypeError" "")))
    as [Hm Hc]; [reflexivity|].
  destruct (proj1 (proj2 (convertError_dispatch_on_class
                            (JObject [("message", JString "boom")]))))
    as (Hm' & Hc' & _); [reflexivity|].
  split; [|split; [exact Hm'|exact Hc']].
  split; [exact Hm|]. split; [reflexivity|]. apply Hc. reflexivity.
Defined.

(** ** Construction *)

(** C2: with an empty [baseUrl] or an empty [apiKey] the constructor
    throws the configuration error, at once: the world is left as it was
    and nothing has been sent. *)
Theorem constructor_missing_option (config : AscndClientConfig) (w : World) :
  baseUrl config = "" \/ apiKey config = "" ->
  exists e : unknown,
    constructor config w = (Throw e, w) /\
    ConfigurationError e /\
    instanceof_Error e = true /\
    sent (snd (constructor config w)) = sent w.
Proof.
  intros H. unfold constructor, ConfigurationError.
  destruct (truthy (baseUrl config)) eqn:Hurl; simpl.
  - destruct H as [H|H%truthy_false].
    + apply truthy_false in H. congruence.
    + rewrite H. simpl. eexists. split; [reflexivity|]. auto.
  - eexists. split; [reflexivity|]. auto.
Qed.

(** An empty [baseUrl], and an empty [apiKey]. *)
Lemma constructor_missing_option_witness :
  (exists e, constructor (sample_config "" "key" Undefined) quiet_world
             = (Throw e, quiet_world) /\ ConfigurationError e) /\
  (exists e, constructor (sample_config "https://api.ascnd.gg" "" Undefined)
               quiet_world
             = (Throw e, quiet_world) /\ ConfigurationError e).
Proof.
  split.
  - destruct (constructor_missing_option
                (sample_config "" "key" Undefined) quiet_world)
      as (e & He & Hc & _); [left; reflexivity|].
    exists e. split; assumption.
  - destruct (constructor_missing_option
                (sample_config "https://api.ascnd.gg" "" Undefined)
                quiet_world)
      as (e & He & Hc & _); [right; reflexivity|].
    exists e. split; assumption.
Defined.

(** C5, as the code has it: the transport of a client built from a valid
    configuration targets [baseUrl] with one trailing slash removed: a
    [baseUrl] that is [s] followed by a slash gives [s], and one that
    does not end in a slash is kept as it is. *)
Theorem constructor_baseUrl (config : AscndClientConfig) (w : World) :
  baseUrl config <> "" -> apiKey config <> "" ->
  exists self : AscndClient,
    constructor config w = (Return self, w) /\
    Transport.baseUrl (transport_of self)
      = replace_slash_at_end (baseUrl config) /\
    (forall s : string,
       baseUrl config = s +:+ "/" ->
       Transport.baseUrl (transport_of self) = s) /\
    (ends_with_slash (baseUrl config) = false ->
     Transport.baseUrl (transport_of self) = baseUrl config).
Proof.
  intros Hurl Hkey. eexists. split; [apply constructor_valid; assumption|].
  simpl. split; [reflexivity|]. split.
  - intros s ->. apply replace_slash_at_end_app.
  - apply replace_slash_at_end_id.
Qed.

(** A [baseUrl] with one trailing slash. *)
Lemma constructor_baseUrl_witness :
  exists self : AscndClient,
    constructor (sample_config "https://api.ascnd.gg/" "key" Undefined)
      quiet_world = (Return self, quiet_world) /\
    Transport.baseUrl (transport_of self) = "https://api.ascnd.gg".
Proof.
  destruct (constructor_baseUrl
              (sample_config "https://api.ascnd.gg/" "key" Undefined)
              quiet_world)
    as (self & Hc & _ & Hs & _); [discriminate | discriminate |].
  exists self. split; [exact Hc|]. apply Hs. reflexivity.
Defined.

(** C5, the claim as stated fails: a [baseUrl] that ends in two slashes
    gives a target that still ends in a slash. *)
Lemma constructor_baseUrl_two_slashes :
  exists self : AscndClient,
    constructor (sample_config "https://api.ascnd.gg//" "key" Undefined)
      quiet_world = (Return self, quiet_world) /\
    Transport.baseUrl (transport_of self) = "https://api.ascnd.gg/" /\
    ends_with_slash (Transport.baseUrl (transport_of self)) = true.
Proof.
  eexists. split; [apply constructor_valid; discriminate|].
  split; reflexivity.
Qed.

(** C6: a client built from a valid configuration without [timeout] has a
    per-call deadline of 30000 milliseconds; with a [timeout], that value
    is the deadline. *)
Theorem constructor_timeout (config : AscndClientConfig) (w : World) :
  baseUrl config <> "" -> apiKey config <> "" ->
  exists self : AscndClient,
    constructor config w = (Return self, w) /\
    (timeout config = Undefined ->
     Transport.defaultTimeoutMs (transport_of self) = 30000%float) /\
    (forall t : number,
       timeout config = Value t ->
       Transport.defaultTimeoutMs (transport_of self) = t).
Proof.
  intros Hurl Hkey. eexists. split; [apply constructor_valid; assumption|].
  simpl. split.
  - intros ->. reflexivity.
  - intros t ->. reflexivity.
Qed.

(** No [timeout], and a [timeout] of five seconds. *)
Lemma constructor_timeout_witness :
  (exists self : AscndClient,
     constructor (sample_config "https://api.ascnd.gg" "key" Undefined)
       quiet_world = (Return self, quiet_world) /\
     Transport.defaultTimeoutMs (transport_of self) = 30000%float) /\
  (exists self : AscndClient,
     constructor
       (sample_config "https://api.ascnd.gg" "key" (Value 5000%float))
       quiet_world = (Return self, quiet_world) /\
     Transport.defaultTimeoutMs (transport_of self) = 5000%float).
Proof.
  split.
  - destruct (constructor_timeout
                (sample_config "https://api.ascnd.gg" "key" Undefined)
                quiet_world)
      as (self & Hc & Hd & _); [discriminate | discriminate |].
    exists self. split; [exact Hc|]. apply Hd. reflexivity.
  - destruct (constructor_timeout
                (sample_config "https://api.ascnd.gg" "key"
                   (Value 5000%float))
                quiet_world)
      as (self & Hc & _ & Hv); [discriminate | discriminate |].
    exists self. split; [exact Hc|]. apply Hv. reflexivity.
Defined.

(** C10: the default of 30000 is taken exactly when [timeout] is
    [undefined] or [null]; any number that is given, zero and the
    negative ones too, becomes the deadline, and construction succeeds
    whatever it is. *)
Theorem constructor_timeout_unchecked (config : AscndClientConfig)
    (w : World) :
  baseUrl config <> "" -> apiKey config <> "" ->
  exists self : AscndClient,
    constructor config w = (Return self, w) /\
    Transport.defaultTimeoutMs (transport_of self) =
      match timeout config with
      | Value t => t
      | Undefined | Null => 30000%float
      end.
Proof.
  intros Hurl Hkey. eexists. split; [apply constructor_valid; assumption|].
  simpl. destruct (timeout config); reflexivity.
Qed.

(** A [timeout] of zero, a negative one, and [null]. *)
Lemma constructor_timeout_unchecked_witness :
  (exists self : AscndClient,
     constructor (sample_config "https://api.ascnd.gg" "key" (Value 0%float))
       quiet_world = (Return self, quiet_world) /\
     Transport.defaultTimeoutMs (transport_of self) = 0%float) /\
  (exists self : AscndClient,
     constructor
       (sample_config "https://api.ascnd.gg" "key" (Value (-250)%float))
       quiet_world = (Return self, quiet_world) /\
     Transport.defaultTimeoutMs (transport_of self) = (-250)%float) /\
  (exists self : AscndClient,
     constructor (sample_config "https://api.ascnd.gg" "key" Null)
       quiet_world = (Return self, quiet_world) /\
     Transport.defaultTimeoutMs (transport_of self) = 30000%float).
Proof.
  split; [|split].
  - apply (constructor_timeout_unchecked
             (sample_config "https://api.ascnd.gg" "key" (Value 0%float))
             quiet_world); discriminate.
  - apply (constructor_timeout_unchecked
             (sample_config "https://api.ascnd.gg" "key"
                (Value (-250)%float))
             quiet_world); discriminate.
  - apply (constructor_timeout_unchecked
             (sample_config "https://api.ascnd.gg" "key" Null)
             quiet_world); discriminate.
Defined.

(** ** The facade *)

(** C3: each of the three operations gives back the response of the
    transport call unchanged when there is one, and otherwise throws the
    [AscndError] that [convertError] makes of whatever the call threw;
    the caller sees no other failure. *)
Theorem operations_surface_AscndError (self : AscndClient) (w : World) :
  (forall request : SubmitScoreRequest.t,
     submitScore self request w
       = surfaced (unary (client self) SubmitScore request w)) /\
  (forall request : GetLeaderboardRequest.t,
     getLeaderboard self request w
       = surfaced (unary (client self) GetLeaderboard request w)) /\
  (forall request : GetPlayerRankRequest.t,
     getPlayerRank self request w
       = surfaced (unary (client self) GetPlayerRank request w)) /\
  (forall (m : Method) (request : Input m) (e : AscndError.t) (w' : World),
     operation m self request w = (Throw e, w') ->
     exists raw : unknown,
       unary (client self) m request w = (Throw raw, w') /\
       e = convertError raw /\ AscndError.name e = "AscndError").
Proof.
  split; [|split; [|split]].
  - intros request. reflexivity.
  - intros request. reflexivity.
  - intros request. reflexivity.
  - intros m request e w'. rewrite operation_unfold.
    destruct (unary (client self) m request w) as [[response|raw] w1];
      intros [= <- <-].
    exists raw. split; [reflexivity|]. split; [reflexivity|].
    destruct raw; reflexivity.
Qed.

(** A leaderboard query answered by a not-found protocol error. *)
Lemma operations_surface_AscndError_witness :
  exists raw : unknown,
    unary (client sample_client) GetLeaderboard sample_board demo_world
      = (Throw raw,
         after_sending demo_world GetLeaderboard
           {| header := {[ "x-api-key" := "secret" ]};
              message := sample_board : Input GetLeaderboard |}) /\
    AscndError.mk "AscndError" "[not_found] no such leaderboard" "5" None
      = convertError raw /\
    AscndError.name
      (AscndError.mk "AscndError" "[not_found] no such leaderboard" "5" None)
      = "AscndError".
Proof.
  apply (proj2 (proj2 (proj2
           (operations_surface_AscndError sample_client demo_world)))
           GetLeaderboard sample_board).
  reflexivity.
Defined.




(** ** Further properties *)

(** X1: the constructor issues no call and leaves the world as it was,
    whatever the configuration. *)
Theorem constructor_sends_nothing (config : AscndClientConfig) (w : World) :
  snd (constructor config w) = w.
Proof.
  unfold constructor.
  destruct (truthy (baseUrl config)), (truthy (apiKey config)); reflexivity.
Qed.

Lemma constructor_interceptors (config : AscndClientConfig) (w w' : World)
    (self : AscndClient) :
  constructor config w = (Return self, w') ->
  Transport.interceptors (client self) = [authInterceptor config].
Proof.
  unfold constructor.
  destruct (truthy (baseUrl config)); [|discriminate].
  destruct (truthy (apiKey config)); [|discriminate].
  intros [= <- _]. reflexivity.
Qed.

(** The world after one operation of a client whose only interceptor is
    the auth interceptor. *)
Lemma operation_world (config : AscndClientConfig) (self : AscndClient)
    (m : Method) (request : Input m) (w : World) :
  Transport.interceptors (client self) = [authInterceptor config] ->
  snd (operation m self request w)
    = if key_accepted config
      then after_sending w m (issued config w m request)
      else w.
Proof.
  intros Hi. rewrite operation_unfold.
  destruct (key_accepted config) eqn:Hk.
  - rewrite (unary_auth config) by assumption.
    destruct (answered w m (issued config w m request)); reflexivity.
  - rewrite (unary_auth_refused config) by assumption. reflexivity.
Qed.



(** ** More on construction *)

Lemma replace_slash_at_end_restore (s : string) :
  replace_slash_at_end s +:+ (if ends_with_slash s then "/" else "") = s.
Proof.
  induction s as [|c s IH]; [reflexivity|].
  destruct s as [|c' s'].
  - cbn. destruct (Ascii.eqb_spec c "/") as [->|_]; reflexivity.
  - change (replace_slash_at_end (String c (String c' s')))
      with (String c (replace_slash_at_end (String c' s'))).
    change (ends_with_slash (String c (String c' s')))
      with (ends_with_slash (String c' s')).
    change (String c ?a +:+ ?b) with (String c (a +:+ b)).
    rewrite IH. reflexivity.
Qed.

Lemma replace_slash_at_end_empty (s : string) :
  replace_slash_at_end s = "" <-> s = "" \/ s = "/".
Proof.
  split.
  - intros H. pose proof (replace_slash_at_end_restore s) as Hr.
    rewrite H in Hr. destruct (ends_with_slash s); cbn in Hr; auto.
  - intros [->| ->]; reflexivity.
Qed.

(** X3: the constructor looks at [baseUrl] first.  An empty [baseUrl]
    gives ["baseUrl is required"] whatever [apiKey] is, an empty [apiKey]
    with a [baseUrl] gives ["apiKey is required"], and a client is built
    exactly when both are non-empty. *)
Theorem constructor_outcome (config : AscndClientConfig) (w : World) :
  (baseUrl config = "" ->
   constructor config w = (Throw (JError "Error" "baseUrl is required"), w)) /\
  (baseUrl config <> "" -> apiKey config = "" ->
   constructor config w = (Throw (JError "Error" "apiKey is required"), w)) /\
  ((exists self : AscndClient, constructor config w = (Return self, w)) <->
   baseUrl config <> "" /\ apiKey config <> "").
Proof.
  unfold constructor.
  destruct (baseUrl config) as [|c u]; destruct (apiKey config) as [|d k];
    cbn; (split; [|split; [|split]]);
    solve [ intros; congruence
          | intros [? ?]; congruence
          | intros [? ?]; discriminate
          | intros _; split; discriminate
          | intros _; eexists; reflexivity ].
Qed.

(** Both options empty: the complaint is about [baseUrl]. *)
Lemma constructor_outcome_witness :
  constructor (sample_config "" "" Undefined) quiet_world
    = (Throw (JError "Error" "baseUrl is required"), quiet_world) /\
  constructor (sample_config "https://api.ascnd.gg" "" (Value 100%float))
      quiet_world
    = (Throw (JError "Error" "apiKey is required"), quiet_world).
Proof.
  split.
  - apply (proj1 (constructor_outcome (sample_config "" "" Undefined)
                    quiet_world)).
    reflexivity.
  - apply (proj1 (proj2 (constructor_outcome
             (sample_config "https://api.ascnd.gg" "" (Value 100%float))
             quiet_world))); [discriminate | reflexivity].
Defined.

(** X4: the target of a client is [baseUrl] less at most its last
    character: putting the slash back, if [baseUrl] ended in one, gives
    [baseUrl] again.  The check for a missing [baseUrl] comes before the
    slash is removed, so the target is empty exactly for the [baseUrl]
    ["/"]. *)
Theorem constructor_baseUrl_restore (config : AscndClientConfig)
    (w w' : World) (self : AscndClient) :
  constructor config w = (Return self, w') ->
  Transport.baseUrl (transport_of self) +:+
    (if ends_with_slash (baseUrl config) then "/" else "")
    = baseUrl config /\
  (Transport.baseUrl (transport_of self) = "" <-> baseUrl config = "/").
Proof.
  unfold constructor.
  destruct (truthy (baseUrl config)) eqn:Hu; [|discriminate].
  destruct (truthy (apiKey config)); [|discriminate].
  intros [= <- _]. cbn. split; [apply replace_slash_at_end_restore|].
  rewrite replace_slash_at_end_empty. apply truthy_true in Hu.
  split; [intros [?|?]; [contradiction|assumption] | auto].
Qed.

(** The [baseUrl] ["/"] passes the check and gives an empty target. *)
Lemma constructor_baseUrl_restore_witness :
  exists self : AscndClient,
    constructor (sample_config "/" "key" Undefined) quiet_world
      = (Return self, quiet_world) /\
    Transport.baseUrl (transport_of self) = "".
Proof.
  eexists. split; [reflexivity|].
  apply (constructor_baseUrl_restore (sample_config "/" "key" Undefined)
           quiet_world quiet_world); reflexivity.
Defined.

(** ** More on the error conversion *)

Lemma Code_toString_inj (c1 c2 : Code.t) :
  Code.toString c1 = Code.toString c2 -> c1 = c2.
Proof. destruct c1, c2; (reflexivity || discriminate). Qed.

Lemma Code_toString_not_UNKNOWN (c : Code.t) : Code.toString c <> "UNKNOWN".
Proof. destruct c; discriminate. Qed.

(** X5: the code ["UNKNOWN"] marks exactly the failures that are not
    protocol errors; a [ConnectError] always gets a numeral, also the one
    whose own code is [Unknown]. *)
Theorem convertError_code_UNKNOWN (error : unknown) :
  (AscndError.code (convertError error) = "UNKNOWN" <->
   instanceof_ConnectError error = false) /\
  AscndError.code (convertError error) <> "".
Proof.
  destruct error; cbn; (split; [split|]);
    try solve [ reflexivity | discriminate ].
  - intros H. exfalso. exact (Code_toString_not_UNKNOWN _ H).
  - destruct code; discriminate.
Qed.

(** X6: converting a protocol error loses nothing but the difference
    between an empty and a missing detail list: two [ConnectError]s that
    give the same [AscndError] have the same message and the same code,
    and the same details when the first has any. *)
Theorem convertError_ConnectError_inj (message1 message2 : string)
    (code1 code2 : Code.t) (details1 details2 : option (list unknown)) :
  convertError (JConnectError message1 code1 details1)
    = convertError (JConnectError message2 code2 details2) ->
  message1 = message2 /\ code1 = code2 /\
  (details_length_truthy details1 = true -> details1 = details2).
Proof.
  unfold convertError, AscndError.new. intros [= Hm Hc Hd].
  split; [exact Hm|]. split; [exact (Code_toString_inj _ _ Hc)|].
  intros H1. rewrite H1 in Hd.
  destruct (details_length_truthy details2) eqn:H2; [|discriminate].
  apply (f_equal (fun o : option (gmap string unknown) =>
                    match o with
                    | Some object => object !! "details"
                    | None => None
                    end)) in Hd.
  cbv beta iota in Hd. unfold details_object in Hd.
  rewrite !lookup_singleton_eq in Hd.
  destruct details1 as [l1|], details2 as [l2|]; try discriminate.
  congruence.
Qed.

(** An empty and a missing detail list are converted alike. *)
Lemma convertError_ConnectError_inj_witness :
  "[not_found] gone" = "[not_found] gone" /\ Code.NotFound = Code.NotFound /\
  (details_length_truthy (Some []) = true ->
   Some [] = (None : option (list unknown))).
Proof.
  apply (convertError_ConnectError_inj "[not_found] gone" "[not_found] gone"
           Code.NotFound Code.NotFound (Some []) None).
  reflexivity.
Defined.

(** ** More on the auth interceptor and on sequences of calls *)

(** X7: with a key that the header set accepts, the auth interceptor
    replaces an [x-api-key] header that is already on the request by the
    normalised key, and adds or removes no other name; so a second auth
    interceptor further out changes nothing when its own key is
    accepted, and when its key is refused it throws before the inner one
    and the next link run.  With a key that is refused, the interceptor
    itself throws and the next link does not run. *)
Theorem authInterceptor_overrides (config outer : AscndClientConfig)
    (m : Method) (next : UnaryRequest m -> Task unknown (Output m))
    (req : UnaryRequest m) (w : World) :
  (key_accepted config = true ->
   exists req' : UnaryRequest m,
     authInterceptor config m next req w = next req' w /\
     header req' !! "x-api-key"
       = Some (header_value_normalize (apiKey config)) /\
     dom (header req') = {[ "x-api-key" ]} ∪ dom (header req) /\
     (key_accepted outer = true ->
      authInterceptor outer m (authInterceptor config m next) req w
        = next req' w) /\
     (key_accepted outer = false ->
      authInterceptor outer m (authInterceptor config m next) req w
        = (Throw (key_refused outer w), w))) /\
  (key_accepted config = false ->
   authInterceptor config m next req w = (Throw (key_refused config w), w)).
Proof.
  unfold key_accepted, key_refused, authInterceptor, bind.
  rewrite !header_set_x_api_key. split; intros Hv; rewrite Hv.
  - eexists. split; [reflexivity|]. cbn [header message].
    split; [apply lookup_insert_eq|]. split; [apply dom_insert_L|].
    split; intros Ho; rewrite Ho; [|reflexivity].
    unfold ret. rewrite header_set_x_api_key, Hv. cbn [header message].
    rewrite insert_insert_eq. reflexivity.
  - reflexivity.
Qed.

(** The key ["secret"] inside, the key [" other "] outside, on a request
    that already has a key. *)
Lemma authInterceptor_overrides_witness :
  authInterceptor (sample_config "https://api.ascnd.gg" " other " Undefined)
    SubmitScore
    (authInterceptor (sample_config "https://api.ascnd.gg" "secret" Undefined)
       SubmitScore (fetch SubmitScore))
    {| header := {[ "x-api-key" := "stale" ]};
       message := sample_submit : Input SubmitScore |} demo_world
  = fetch SubmitScore
      {| header := {[ "x-api-key" := "secret" ]};
         message := sample_submit : Input SubmitScore |} demo_world.
Proof.
  destruct (proj1 (authInterceptor_overrides
             (sample_config "https://api.ascnd.gg" "secret" Undefined)
             (sample_config "https://api.ascnd.gg" " other " Undefined)
             SubmitScore (fetch SubmitScore)
             {| header := {[ "x-api-key" := "stale" ]};
                message := sample_submit : Input SubmitScore |} demo_world))
    as (req' & Hr & _ & _ & Ho & _); [reflexivity|].
  rewrite (Ho eq_refl), <- Hr. reflexivity.
Defined.

(** X8: whatever calls are made through a client, one after the other,
    and whether they succeed or fail: when the header set accepts the
    key, the requests sent are the earlier ones followed by one request
    per call, in the order of the calls, each with the method and the
    message of its call and with the normalised key in [x-api-key]; when
    it refuses the key, no request is ever sent. *)
Theorem run_calls_log (config : AscndClientConfig) (w0 w1 : World)
    (self : AscndClient) (calls : list Call) (w : World) :
  constructor config w0 = (Return self, w1) ->
  (header_value_valid (header_value_normalize (apiKey config)) = true ->
   exists new : list Sent,
     sent (run_calls self calls w) = (sent w ++ new)%list /\
     map call_of new = calls /\
     Forall (carries_key (header_value_normalize (apiKey config))) new) /\
  (header_value_valid (header_value_normalize (apiKey config)) = false ->
   sent (run_calls self calls w) = sent w).
Proof.
  intros Hi%constructor_interceptors.
  pose proof (fun m request w =>
                operation_world config self m request w Hi) as Hw.
  unfold key_accepted in Hw. split; intros Hv; rewrite Hv in Hw;
    revert w; induction calls as [|[m request] rest IH]; intros w.
  - exists []. split; [symmetry; apply app_nil_r|]. split; constructor.
  - cbn [run_calls]. rewrite Hw.
    destruct (IH (after_sending w m (issued config w m request)))
      as (new & Hs & Hc & Hk).
    exists (existT m (issued config w m request) :: new).
    split; [|split].
    + rewrite Hs. cbn. rewrite <- app_assoc. reflexivity.
    + cbn. rewrite Hc. reflexivity.
    + constructor; [apply lookup_insert_eq | exact Hk].
  - reflexivity.
  - cbn [run_calls]. rewrite Hw. apply IH.
Qed.

(** A submission that succeeds, a query that fails, and a query that
    fails on the network. *)
Lemma run_calls_log_witness :
  exists new : list Sent,
    sent (run_calls sample_client
            [existT SubmitScore sample_submit;
             existT GetLeaderboard sample_board;
             existT GetPlayerRank sample_rank] demo_world)
      = ([] ++ new)%list /\
    map call_of new
      = [existT SubmitScore sample_submit;
         existT GetLeaderboard sample_board;
         existT GetPlayerRank sample_rank] /\
    Forall (carries_key "secret") new.
Proof.
  apply (run_calls_log
           (sample_config "https://api.ascnd.gg" "secret" Undefined)
           demo_world demo_world sample_client
           [existT SubmitScore sample_submit;
            existT GetLeaderboard sample_board;
            existT GetPlayerRank sample_rank] demo_world);
    reflexivity.
Defined.

(** ** The leaderboard example: the table *)

Lemma length_spaces (n : nat) : String.length (spaces n) = n.
Proof. induction n as [|n IH]; cbn; [reflexivity | rewrite IH; reflexivity]. Qed.

Lemma length_string_app (a b : string) :
  String.length (a +:+ b) = String.length a + String.length b.
Proof.
  induction a as [|c a IH]; [reflexivity|].
  change (String c a +:+ b) with (String c (a +:+ b)).
  cbn [String.length]. rewrite IH. reflexivity.
Qed.

Lemma length_padStart (n : nat) (s : string) :
  String.length (padStart n s) = Nat.max n (String.length s).
Proof. unfold padStart. rewrite length_string_app, length_spaces. lia. Qed.

Lemma length_padEnd (n : nat) (s : string) :
  String.length (padEnd n s) = Nat.max n (String.length s).
Proof. unfold padEnd. rewrite length_string_app, length_spaces. lia. Qed.

Lemma length_slice_to (n : nat) (s : string) :
  String.length (slice_to n s) = Nat.min n (String.length s).
Proof.
  unfold slice_to. revert n.
  induction s as [|c s IH]; intros [|n]; cbn; try reflexivity.
  rewrite IH. reflexivity.
Qed.

Lemma slice_to_short (n : nat) (s : string) :
  String.length s <= n -> slice_to n s = s.
Proof.
  unfold slice_to. revert n.
  induction s as [|c s IH]; intros [|n] H; cbn in *;
    try reflexivity; try lia.
  rewrite IH by lia. reflexivity.
Qed.

(** A part of [a +:+ b] that starts in [b]. *)
Lemma substring_app_skip (a b : string) (k n : nat) :
  substring (String.length a + k) n (a +:+ b) = substring k n b.
Proof.
  induction a as [|c a IH]; [reflexivity|].
  change (String c a +:+ b) with (String c (a +:+ b)). cbn. exact IH.
Qed.

Lemma substring_app_take (a b : string) :
  substring 0 (String.length a) (a +:+ b) = a.
Proof.
  induction a as [|c a IH]; [destruct b; reflexivity|].
  change (String c a +:+ b) with (String c (a +:+ b)). cbn.
  rewrite IH. reflexivity.
Qed.

Lemma substring_take_take (n k : nat) (s : string) :
  k <= n -> substring 0 k (substring 0 n s) = substring 0 k s.
Proof.
  revert n k. induction s as [|c s IH]; intros [|n] [|k] H; cbn;
    try reflexivity; try lia.
  rewrite IH by lia. reflexivity.
Qed.

Lemma string_app_assoc (a b c : string) :
  (a +:+ b) +:+ c = a +:+ (b +:+ c).
Proof.
  induction a as [|x a IH]; [reflexivity|].
  change (String x a +:+ b) with (String x (a +:+ b)).
  change (String x ?u +:+ ?v) with (String x (u +:+ v)).
  rewrite IH. reflexivity.
Qed.

Lemma string_app_nil_r (a : string) : a +:+ "" = a.
Proof.
  induction a as [|x a IH]; [reflexivity|].
  change (String x a +:+ "") with (String x (a +:+ "")).
  rewrite IH. reflexivity.
Qed.

Lemma get_app_at (a b : string) (n k : nat) :
  String.length a = k -> get (n + k) (a +:+ b) = get n b.
Proof. intros <-. symmetry. apply append_correct2. Qed.

Lemma substring_app_at (a b : string) (k j n : nat) :
  String.length a = k -> substring (k + j) n (a +:+ b) = substring j n b.
Proof. intros <-. apply substring_app_skip. Qed.

Lemma substring_app_take_at (a b : string) (k : nat) :
  String.length a = k -> substring 0 k (a +:+ b) = a.
Proof. intros <-. apply substring_app_take. Qed.

(** A rank below ten thousand has at most four digits. *)
Lemma String_of_N_short (n : N) :
  (n < 10000)%N -> String.length (String_of_N n) <= 4.
Proof.
  intros Hn.
  assert (Hall : forallb
            (fun k => Nat.leb (String.length (String_of_N (N.of_nat k))) 4)
            (List.seq 0 (N.to_nat 10000)) = true)
    by (vm_compute; reflexivity).
  rewrite forallb_forall in Hall.
  specialize (Hall (N.to_nat n)). rewrite N2Nat.id in Hall.
  apply Nat.leb_le, Hall, in_seq. lia.
Qed.

(** The line of an entry, cut at its columns. *)
Lemma leaderboard_row_parts (entry : LeaderboardEntry.t) :
  exists rank player score : string,
    leaderboard_row entry = rank +:+ "  | " +:+ player +:+ " | " +:+ score /\
    rank = padStart 4 (String_of_N (LeaderboardEntry.rank entry)) /\
    player = padEnd 18 (slice_to 18 (LeaderboardEntry.playerId entry)) /\
    score = padStart 10 (String_of_Z (LeaderboardEntry.score entry)) /\
    String.length player = 18.
Proof.
  do 3 eexists. split; [reflexivity|]. do 3 (split; [reflexivity|]).
  rewrite length_padEnd, length_slice_to. lia.
Qed.

(** X9: with a rank below ten thousand, the line of an entry has its two
    separators where the heading and the rule have theirs, and between
    them the player: in full when the id has at most 18 code units, its
    first 18 otherwise. *)
Theorem leaderboard_row_aligned (entry : LeaderboardEntry.t) :
  (LeaderboardEntry.rank entry < 10000)%N ->
  let row := leaderboard_row entry in
  let id := LeaderboardEntry.playerId entry in
  (get 6 row = Some "|"%char /\ get 27 row = Some "|"%char) /\
  (get 6 leaderboard_heading = Some "|"%char /\
   get 27 leaderboard_heading = Some "|"%char /\
   get 6 leaderboard_rule = Some "+"%char /\
   get 27 leaderboard_rule = Some "+"%char) /\
  String.length (substring 8 18 row) = 18 /\
  (String.length id <= 18 -> substring 8 (String.length id) row = id) /\
  (18 <= String.length id -> substring 8 18 row = substring 0 18 id).
Proof.
  intros Hrank%String_of_N_short. cbv zeta.
  destruct (leaderboard_row_parts entry)
    as (rank & player & score & -> & Hr & Hp & _ & Hlp).
  assert (Hlr : String.length rank = 4)
    by (rewrite Hr, length_padStart; lia).
  assert (Hcol : forall n : nat,
            substring 8 n (rank +:+ "  | " +:+ player +:+ " | " +:+ score)
            = substring 0 n (player +:+ " | " +:+ score)).
  { intros n. rewrite (substring_app_at rank _ 4 4 n Hlr). reflexivity. }
  split; [split|split; [repeat split|split; [|split]]].
  - rewrite (get_app_at rank _ 2 4 Hlr). reflexivity.
  - rewrite (get_app_at rank _ 23 4 Hlr).
    change (get 23 ("  | " +:+ ?x)) with (get 19 x).
    rewrite (get_app_at player _ 1 18 Hlp). reflexivity.
  - rewrite Hcol, (substring_app_take_at player _ 18 Hlp). exact Hlp.
  - intros Hid. rewrite Hcol, Hp.
    rewrite (slice_to_short 18 (LeaderboardEntry.playerId entry) Hid).
    unfold padEnd. rewrite !string_app_assoc.
    apply substring_app_take.
  - intros Hid. rewrite Hcol, (substring_app_take_at player _ 18 Hlp), Hp.
    assert (Hs : String.length
                   (slice_to 18 (LeaderboardEntry.playerId entry)) = 18)
      by (rewrite length_slice_to; lia).
    unfold padEnd. rewrite Hs. cbn [Nat.sub spaces].
    apply string_app_nil_r.
Qed.

(** The first line of the expected output in the example's README, and
    an id of twenty code units. *)
Lemma leaderboard_row_aligned_witness :
  leaderboard_row
    {| LeaderboardEntry.rank := 1;
       LeaderboardEntry.playerId := "player_champion";
       LeaderboardEntry.score := 999999;
       LeaderboardEntry.metadata := None;
       LeaderboardEntry.bracket := None |}
    = "   1  | player_champion    |     999999" /\
  substring 8 18
    (leaderboard_row
       {| LeaderboardEntry.rank := 12;
          LeaderboardEntry.playerId := "player_with_long_id_";
          LeaderboardEntry.score := 7;
          LeaderboardEntry.metadata := None;
          LeaderboardEntry.bracket := None |})
    = "player_with_long_i".
Proof.
  split; [reflexivity|].
  apply (leaderboard_row_aligned
           {| LeaderboardEntry.rank := 12;
              LeaderboardEntry.playerId := "player_with_long_id_";
              LeaderboardEntry.score := 7;
              LeaderboardEntry.metadata := None;
              LeaderboardEntry.bracket := None |});
    [reflexivity | cbn; lia].
Defined.

Lemma substring_full (s : string) : substring 0 (String.length s) s = s.
Proof.
  induction s as [|c s IH]; [reflexivity|]. cbn. rewrite IH. reflexivity.
Qed.

(** X10: nothing is cut from a rank or from a score.  The line of an
    entry is as long as its columns and separators together, a rank of
    more than four digits moves both separators to the right by the
    excess, and rank and score are there in full. *)
Theorem leaderboard_row_width (entry : LeaderboardEntry.t) :
  let row := leaderboard_row entry in
  let rank := String_of_N (LeaderboardEntry.rank entry) in
  let score := String_of_Z (LeaderboardEntry.score entry) in
  let r := Nat.max 4 (String.length rank) in
  let s := Nat.max 10 (String.length score) in
  String.length row = r + 25 + s /\
  get (r + 2) row = Some "|"%char /\
  get (r + 23) row = Some "|"%char /\
  substring (r - String.length rank) (String.length rank) row = rank /\
  substring (r + 25 + (s - String.length score)) (String.length score) row
    = score.
Proof.
  cbv zeta. unfold leaderboard_row.
  set (rs := String_of_N (LeaderboardEntry.rank entry)).
  set (ss := String_of_Z (LeaderboardEntry.score entry)).
  set (player := padEnd 18 (slice_to 18 (LeaderboardEntry.playerId entry))).
  assert (Hlp : String.length player = 18)
    by (unfold player; rewrite length_padEnd, length_slice_to; lia).
  pose proof (length_padStart 4 rs) as Hlr.
  pose proof (length_padStart 10 ss) as Hls.
  split; [|split; [|split; [|split]]].
  - rewrite !length_string_app, Hlr, Hls, Hlp. cbn. lia.
  - rewrite Nat.add_comm, (get_app_at _ _ 2 _ Hlr). reflexivity.
  - rewrite Nat.add_comm, (get_app_at _ _ 23 _ Hlr).
    change (get 23 ("  | " +:+ ?x)) with (get 19 x).
    rewrite (get_app_at player _ 1 18 Hlp). reflexivity.
  - unfold padStart at 1. rewrite string_app_assoc.
    replace (Nat.max 4 (String.length rs) - String.length rs)
      with (4 - String.length rs + 0) by lia.
    rewrite (substring_app_at _ _ _ 0 _ (length_spaces _)).
    apply substring_app_take.
  - unfold padStart at 2. rewrite <- !string_app_assoc.
    replace (Nat.max 4 (String.length rs) + 25
             + (Nat.max 10 (String.length ss) - String.length ss))
      with (Nat.max 4 (String.length rs) + 25
            + (10 - String.length ss) + 0) by lia.
    rewrite substring_app_at; [apply substring_full|].
    rewrite !length_string_app, Hlr, Hlp, length_spaces. cbn. lia.
Qed.

(** ** The example programs, run *)


(** What the constructor gives the examples: no client without the key,
    and with it a client through which a request leaves stamped, if the
    header set accepts the key. *)
Lemma example_client (env : gmap string string) (p : Process) :
  (getenv env "ASCND_API_KEY" = "" ->
   new_AscndClient (example_config env) p =
     (Throw (ThrownValue (JError "Error" "apiKey is required")), p)) /\
  (getenv env "ASCND_API_KEY" <> "" ->
   exists self : AscndClient,
     new_AscndClient (example_config env) p = (Return self, p) /\
     forall (m : Method) (request : Input m) (w : World),
       operation m self request w =
         if key_accepted (example_config env)
         then surfaced
                (answered w m (issued (example_config env) w m request),
                 after_sending w m (issued (example_config env) w m request))
         else (Throw (convertError
                        (reject w (key_refused (example_config env) w))),
               w)).
Proof.
  destruct p as [w0 out]. unfold new_AscndClient. cbn [world stdout]. split.
  - intros Hk. unfold constructor. cbn [baseUrl apiKey example_config].
    rewrite Hk. reflexivity.
  - intros Hk. eexists. split.
    + rewrite constructor_valid; [reflexivity | discriminate | exact Hk].
    + intros m request w. rewrite operation_unfold.
      destruct (key_accepted (example_config env)) eqn:Hv.
      * rewrite (unary_auth (example_config env)) by (exact Hv || reflexivity).
        reflexivity.
      * rewrite (unary_auth_refused (example_config env))
          by (exact Hv || reflexivity).
        reflexivity.
Qed.



(** X12: the submit-score example.  Without [ASCND_API_KEY] it stops at
    the constructor, with nothing sent and nothing written; with a key
    that the header set refuses it stops at the call, again with nothing
    sent and nothing written.  With a key that is accepted it sends one
    submission of the score 42500 for the player [player_example_001],
    with the normalised key; if the submission fails, the program ends
    with the converted error and has written nothing; if it succeeds, it
    writes three lines, with the rank of the response and [Yes!] or [No]
    for a new best. *)
Theorem submit_score_main_outcome (env : gmap string string) (p : Process) :
  (getenv env "ASCND_API_KEY" = "" ->
   submit_score_main env p =
     (Throw (ThrownValue (JError "Error" "apiKey is required")), p)) /\
  (getenv env "ASCND_API_KEY" <> "" ->
   header_value_valid
     (header_value_normalize (getenv env "ASCND_API_KEY")) = false ->
   submit_score_main env p =
     (Throw (ThrownAscndError
               (convertError
                  (reject (world p)
                     (JError "TypeError"
                        (headerError (world p) "x-api-key"
                           (getenv env "ASCND_API_KEY")))))),
      p)) /\
  (getenv env "ASCND_API_KEY" <> "" ->
   header_value_valid
     (header_value_normalize (getenv env "ASCND_API_KEY")) = true ->
   exists req : UnaryRequest SubmitScore,
     header req !! "x-api-key"
       = Some (header_value_normalize (getenv env "ASCND_API_KEY")) /\
     message req =
       {| SubmitScoreRequest.leaderboardId := getenv env "LEADERBOARD_ID";
          SubmitScoreRequest.playerId := "player_example_001";
          SubmitScoreRequest.score := Int64 42500 eq_refl;
          SubmitScoreRequest.metadata := None;
          SubmitScoreRequest.idempotencyKey := None |} /\
     submit_score_main env p =
       match answered (world p) SubmitScore req with
       | Throw e =>
           (Throw (ThrownAscndError (convertError e)),
            {| world := after_sending (world p) SubmitScore req;
               stdout := stdout p |})
       | Return result =>
           (Return tt,
            {| world := after_sending (world p) SubmitScore req;
               stdout :=
                 (stdout p ++
                  [ "Score submitted!";
                    "  Rank: #" +:+
                    String_of_N (SubmitScoreResponse.rank result);
                    "  New personal best: " +:+
                    (if SubmitScoreResponse.isNewBest result
                     then "Yes!" else "No") ])%list |})
       end).
Proof.
  destruct (example_client env p) as [Hno Hyes]. split; [|split].
  - intros Hk. unfold submit_score_main, and_then.
    change {| baseUrl := _; apiKey := _; timeout := _ |}
      with (example_config env).
    rewrite (Hno Hk). reflexivity.
  - intros Hk Hv. destruct (Hyes Hk) as (self & Hc & Hop).
    unfold submit_score_main, and_then.
    change {| baseUrl := _; apiKey := _; timeout := _ |}
      with (example_config env).
    rewrite Hc. unfold await.
    change (submitScore self ?r) with (operation SubmitScore self r).
    rewrite Hop. unfold key_accepted. cbn [apiKey example_config].
    rewrite Hv. destruct p; reflexivity.
  - intros Hk Hv. destruct (Hyes Hk) as (self & Hc & Hop).
    exists (issued (example_config env) (world p) SubmitScore
              {| SubmitScoreRequest.leaderboardId :=
                   getenv env "LEADERBOARD_ID";
                 SubmitScoreRequest.playerId := "player_example_001";
                 SubmitScoreRequest.score := Int64 42500 eq_refl;
                 SubmitScoreRequest.metadata := None;
                 SubmitScoreRequest.idempotencyKey := None |}).
    split; [apply lookup_insert_eq|]. split; [reflexivity|].
    unfold submit_score_main, and_then.
    change {| baseUrl := _; apiKey := _; timeout := _ |}
      with (example_config env).
    rewrite Hc. unfold await.
    change (submitScore self ?r) with (operation SubmitScore self r).
    rewrite Hop. unfold key_accepted. cbn [apiKey example_config].
    rewrite Hv. cbn [surfaced].
    destruct (answered (world p) SubmitScore _)
      as [result|e]; [|reflexivity].
    unfold console_log. cbn [world stdout].
    rewrite <- !app_assoc. reflexivity.
Qed.

(** Without the key, and with it in [board_world]: the output of the
    example's README. *)
Lemma submit_score_main_outcome_witness :
  submit_score_main ∅ {| world := board_world; stdout := [] |} =
    (Throw (ThrownValue (JError "Error" "apiKey is required")),
     {| world := board_world; stdout := [] |}) /\
  stdout (snd (submit_score_main sample_env
                 {| world := board_world; stdout := [] |})) =
    [ "Score submitted!"; "  Rank: #42"; "  New personal best: Yes!" ].
Proof.
  split.
  - apply (proj1 (submit_score_main_outcome ∅
                    {| world := board_world; stdout := [] |})).
    reflexivity.
  - destruct (proj2 (proj2 (submit_score_main_outcome sample_env
                       {| world := board_world; stdout := [] |})))
      as (req & _ & _ & Hrun); [discriminate | reflexivity |].
    rewrite Hrun. reflexivity.
Defined.
